(** * The VMI eviction reconciler of cluster-api-provider-kubevirt

    A shallow embedding of [controllers/vmi_controller.go]: the reconciler
    that drains the workload-cluster node of a VirtualMachineInstance marked
    for evacuation and then deletes the instance from the management
    cluster.

    The controller talks to two API servers and to three libraries
    (client-go, kubectl's drain helper, cluster-api's noderefutil).  They are
    gathered in one record of operations, [Env], over an arbitrary state of
    the outside world; the controller's functions are written in a small
    monad that threads that state, records every call with its answer in a
    trace, and can panic (a nil pointer dereference). *)

From Stdlib Require Import ZArith List Sorted Lia.
From stdpp Require Import base option gmap strings.

Open Scope string_scope.
Open Scope list_scope.
Open Scope Z_scope.
Import ListNotations.

(** ** Go values *)

(** [time.Duration] is an int64 count of nanoseconds. *)
Definition Duration := Z.
Definition Second : Duration := 1000000000.

(** [metav1.StatusReason], as far as the controller tells reasons apart. *)
Inductive StatusReason :=
| StatusReasonNotFound
| StatusReasonAlreadyExists
| StatusReasonOther (reason : string).

(** Go [error] values.  [StatusError] is what an API server answers,
    [errorString] a message of [errors.New], [fmt.Errorf] without [%w] or
    [errors.Errorf], and [wrapError] a message around a cause ([fmt.Errorf]
    with [%w], [errors.Wrapf]); a nil error is [None : option error]. *)
Inductive error :=
| StatusError (reason : StatusReason) (msg : string)
| errorString (msg : string)
| wrapError (msg : string) (cause : error).

(** [err != nil] *)
Definition notNil (err : option error) : bool :=
  match err with
  | Some _ => true
  | None => false
  end.

(** [err.Error()] *)
Definition Error (err : error) : string :=
  match err with
  | StatusError _ msg => msg
  | errorString msg => msg
  | wrapError msg _ => msg
  end.

(** [apierrors.ReasonForError]: the reason of the first status error in the
    chain of causes, [None] for StatusReasonUnknown. *)
Fixpoint ReasonForError (err : error) : option StatusReason :=
  match err with
  | StatusError reason _ => Some reason
  | errorString _ => None
  | wrapError _ cause => ReasonForError cause
  end.

(** [apierrors.IsNotFound], by the reason of the error (its fallback on the
    HTTP code of a status whose reason is unknown is not modelled). *)
Definition IsNotFound (err : error) : bool :=
  match ReasonForError err with
  | Some StatusReasonNotFound => true
  | _ => false
  end.

(** [apierrors.IsAlreadyExists] *)
Definition IsAlreadyExists (err : error) : bool :=
  match ReasonForError err with
  | Some StatusReasonAlreadyExists => true
  | _ => false
  end.

(** ** Kubernetes objects, with the fields the controller reads *)

(** [types.NamespacedName], which [client.ObjectKey] aliases. *)
Record NamespacedName := {
  nn_Namespace : string;
  nn_Name : string
}.

(** [NamespacedName.String()] *)
Definition NamespacedName_String (n : NamespacedName) : string :=
  nn_Namespace n +:+ "/" +:+ nn_Name n.

(** [ctrl.Request] embeds a NamespacedName. *)
Record Request := {
  req_NamespacedName : NamespacedName
}.

Definition req_Name (req : Request) : string := nn_Name (req_NamespacedName req).

(** [ctrl.Result] *)
Record Result := {
  Requeue : bool;
  RequeueAfter : Duration
}.

(** [ctrl.Result{}] *)
Definition Result_zero : Result := {| Requeue := false; RequeueAfter := 0 |}.

(** [kubevirtv1.VirtualMachineInstance] *)
Record VirtualMachineInstance := {
  vmi_Namespace : string;
  vmi_Name : string;
  vmi_Labels : gmap string string;
  vmi_Status_EvacuationNodeName : string
}.

(** [corev1.ObjectReference] *)
Record ObjectReference := {
  ref_Namespace : string;
  ref_Name : string
}.

(** [clusterv1.Cluster]; [Spec.InfrastructureRef] is a pointer, nil when the
    cluster names no infrastructure object. *)
Record Cluster := {
  cluster_Namespace : string;
  cluster_Name : string;
  cluster_Spec_InfrastructureRef : option ObjectReference
}.

(** [corev1.Secret]; a [[]byte] value is kept as the string of its bytes. *)
Record Secret := {
  secret_Data : gmap string string
}.

Record NodeCondition := {
  cond_Type : string;
  cond_Status : string
}.

(** [corev1.Node] *)
Record Node := {
  node_Name : string;
  node_Spec_Unschedulable : bool;
  node_Status_Conditions : list NodeCondition
}.

(** [metav1.DeletionPropagation] *)
Inductive DeletionPropagation :=
| DeletePropagationOrphan
| DeletePropagationBackground
| DeletePropagationForeground.

(** [client.DeleteOptions]; a nil [PropagationPolicy] is [None]. *)
Record DeleteOptions := {
  PropagationPolicy : option DeletionPropagation
}.

(** A line handed to the [logr.Logger]: [logger.V(v).Info(msg, kv...)] or
    [logger.Error(err, msg, kv...)]. *)
Inductive LogEntry :=
| LogInfo (v : nat) (msg : string) (keysAndValues : list (string * string))
| LogError (err : option error) (msg : string) (keysAndValues : list (string * string)).

(** [kubedrain.Helper] built over a client of type [C].  Its context and its
    logging sinks ([OnPodDeletedOrEvicted], [Out], [ErrOut]) are left out:
    they carry no decision of the controller. *)
Record Helper (C : Type) := {
  Client : C;
  Force : bool;
  IgnoreAllDaemonSets : bool;
  DeleteEmptyDirData : bool;
  GracePeriodSeconds : Z;
  Timeout : Duration;
  SkipWaitForDeleteTimeoutSeconds : Z
}.
Arguments Client {C}.
Arguments Force {C}.
Arguments IgnoreAllDaemonSets {C}.
Arguments DeleteEmptyDirData {C}.
Arguments GracePeriodSeconds {C}.
Arguments Timeout {C}.
Arguments SkipWaitForDeleteTimeoutSeconds {C}.

(** [drainer.SkipWaitForDeleteTimeoutSeconds = n] *)
Definition set_SkipWaitForDeleteTimeoutSeconds {C} (n : Z) (h : Helper C) : Helper C :=
  {| Client := Client h;
     Force := Force h;
     IgnoreAllDaemonSets := IgnoreAllDaemonSets h;
     DeleteEmptyDirData := DeleteEmptyDirData h;
     GracePeriodSeconds := GracePeriodSeconds h;
     Timeout := Timeout h;
     SkipWaitForDeleteTimeoutSeconds := n |}.

(** ** The outside world

    Everything the controller calls and does not define: the management
    cluster's client, the workload cluster's client, the libraries, and the
    two label names declared in the api packages.  An operation takes the
    state of the world and answers with a result and the next state; a Go
    pair (value, error) with exactly one side set is a sum. *)
Record Env := {
  State : Type;
  RestConfig : Type;
  Clientset : Type;
  (** [infrav1.KubevirtMachineNamespaceLabel] *)
  KubevirtMachineNamespaceLabel : string;
  (** [clusterv1.ClusterLabelName] *)
  ClusterLabelName : string;
  (** [strconv.Quote], the rendering of [%q] *)
  strconv_Quote : string -> string;
  (** [noderefutil.IsNodeUnreachable] *)
  IsNodeUnreachable : Node -> bool;
  (** [r.Get(ctx, key, &kubevirtv1.VirtualMachineInstance{})] *)
  Client_Get_VMI : NamespacedName -> State -> (VirtualMachineInstance + error) * State;
  (** [r.Get(ctx, key, &clusterv1.Cluster{})] *)
  Client_Get_Cluster : NamespacedName -> State -> (Cluster + error) * State;
  (** [r.Client.Get(ctx, key, &corev1.Secret{})] *)
  Client_Get_Secret : NamespacedName -> State -> (Secret + error) * State;
  (** [r.Delete(ctx, vmi, opts)] *)
  Client_Delete : VirtualMachineInstance -> DeleteOptions -> State -> option error * State;
  (** [clientcmd.RESTConfigFromKubeConfig] *)
  RESTConfigFromKubeConfig : string -> State -> (RestConfig + error) * State;
  (** [kubernetes.NewForConfig] *)
  NewForConfig : RestConfig -> State -> (Clientset + error) * State;
  (** [kubeClient.CoreV1().Nodes().Get(ctx, name, metav1.GetOptions{})] *)
  Nodes_Get : Clientset -> string -> State -> (Node + error) * State;
  (** [kubedrain.RunCordonOrUncordon(drainer, node, desired)] *)
  RunCordonOrUncordon : Helper Clientset -> Node -> bool -> State -> option error * State;
  (** [kubedrain.RunNodeDrain(drainer, nodeName)] *)
  RunNodeDrain : Helper Clientset -> string -> State -> option error * State
}.

(** How a call ends: with its results, or in a panic. *)
Inductive Outcome (A : Type) :=
| Returned (a : A)
| Panicked (msg : string).
Arguments Returned {A}.
Arguments Panicked {A}.

Section Controller.

Variable env : Env.

(** ** Traces: every call on the outside world, with its answer *)
Inductive Event :=
| EvGetVMI (key : NamespacedName) (r : VirtualMachineInstance + error)
| EvGetCluster (key : NamespacedName) (r : Cluster + error)
| EvGetSecret (key : NamespacedName) (r : Secret + error)
| EvRESTConfig (kubeconfig : string) (r : RestConfig env + error)
| EvNewForConfig (cfg : RestConfig env) (r : Clientset env + error)
| EvGetNode (c : Clientset env) (name : string) (r : Node + error)
| EvCordon (drainer : Helper (Clientset env)) (node : Node) (desired : bool) (r : option error)
| EvDrain (drainer : Helper (Clientset env)) (nodeName : string) (r : option error)
| EvDelete (vmi : VirtualMachineInstance) (opts : DeleteOptions) (r : option error)
| EvLog (entry : LogEntry).

Definition Trace := list Event.

(** ** The monad: state of the world, trace, panics *)
Definition M (A : Type) : Type := State env -> Outcome A * State env * Trace.

Definition ret {A} (a : A) : M A := fun w => (Returned a, w, []).

Definition bind {A B} (m : M A) (k : A -> M B) : M B :=
  fun w =>
    match m w with
    | (Returned a, w1, t1) =>
        match k a w1 with
        | (o, w2, t2) => (o, w2, t1 ++ t2)
        end
    | (Panicked msg, w1, t1) => (Panicked msg, w1, t1)
    end.

Definition panic {A} (msg : string) : M A := fun w => (Panicked msg, w, []).

Notation "x <- m ;; k" := (bind m (fun x => k))
  (at level 100, m at next level, right associativity).
Notation "m ;; k" := (bind m (fun _ => k))
  (at level 100, right associativity).

(** A call on the outside world, recorded with its answer. *)
Definition call {A} (op : State env -> A * State env) (ev : A -> Event) : M A :=
  fun w => let (r, w1) := op w in (Returned r, w1, [ev r]).

Definition log (entry : LogEntry) : M unit :=
  fun w => (Returned tt, w, [EvLog entry]).

Definition Get_VMI key := call (Client_Get_VMI env key) (EvGetVMI key).
Definition Get_Cluster key := call (Client_Get_Cluster env key) (EvGetCluster key).
Definition Get_Secret key := call (Client_Get_Secret env key) (EvGetSecret key).
Definition Delete vmi opts := call (Client_Delete env vmi opts) (EvDelete vmi opts).
Definition restConfigFromKubeConfig data :=
  call (RESTConfigFromKubeConfig env data) (EvRESTConfig data).
Definition newForConfig cfg := call (NewForConfig env cfg) (EvNewForConfig cfg).
Definition nodesGet c name := call (Nodes_Get env c name) (EvGetNode c name).
Definition runCordonOrUncordon drainer node desired :=
  call (RunCordonOrUncordon env drainer node desired) (EvCordon drainer node desired).
Definition runNodeDrain drainer name :=
  call (RunNodeDrain env drainer name) (EvDrain drainer name).

(** ** The controller *)

Definition getCluster (vmi : VirtualMachineInstance) : M (Cluster + error) :=
  match vmi_Labels vmi !! KubevirtMachineNamespaceLabel env with
  | None =>
      ret (inr (errorString
        ("can't find the cluster namespace from the VM; missing "
         +:+ KubevirtMachineNamespaceLabel env +:+ " label")))
  | Some clusterNS =>
      match vmi_Labels vmi !! ClusterLabelName env with
      | None =>
          ret (inr (errorString
            ("can't find the cluster name from the VM; missing "
             +:+ ClusterLabelName env +:+ " label")))
      | Some clusterName =>
          r <- Get_Cluster {| nn_Namespace := clusterNS; nn_Name := clusterName |} ;;
          match r with
          | inr err =>
              ret (inr (wrapError
                ("can't find the cluster " +:+ clusterNS +:+ "/" +:+ clusterName
                 +:+ "; " +:+ Error err) err))
          | inl cluster => ret (inl cluster)
          end
      end
  end.

(** getKubeconfigForWorkloadCluster fetches kubeconfig for workload cluster
    from the corresponding secret. *)
Definition getKubeconfigForWorkloadCluster (cluster : Cluster) : M (string + error) :=
  match cluster_Spec_InfrastructureRef cluster with
  | None => panic "invalid memory address or nil pointer dereference"
  | Some infrastructureRef =>
      let kubeconfigSecretKey :=
        {| nn_Namespace := ref_Namespace infrastructureRef;
           nn_Name := ref_Name infrastructureRef +:+ "-kubeconfig" |} in
      r <- Get_Secret kubeconfigSecretKey ;;
      match r with
      | inr err =>
          ret (inr (wrapError
            ("failed to fetch kubeconfig for workload cluster: " +:+ Error err) err))
      | inl kubeconfigSecret =>
          match secret_Data kubeconfigSecret !! "value" with
          | None =>
              ret (inr (errorString
                "error retrieving kubeconfig data: secret value key is missing"))
          | Some value => ret (inl value)
          end
      end
  end.

(** This functions drains a node from a tenant cluster.
    The function returns 3 values:
    - drain done - boolean
    - retry time, or 0 if not needed
    - error - to be returned if we want to retry *)
Definition drainNode (cluster : Cluster) (nodeName : string)
  : M (bool * Duration * option error) :=
  k <- getKubeconfigForWorkloadCluster cluster ;;
  match k with
  | inr err =>
      log (LogError (Some err)
        "Error getting a remote client configurations while deleting Machine, won't retry" []) ;;
      ret (false, 0, None)
  | inl kubeconfigData =>
  c <- restConfigFromKubeConfig kubeconfigData ;;
  match c with
  | inr err =>
      log (LogError (Some err)
        "Error generating a remote client configurations while deleting Machine, won't retry" []) ;;
      ret (false, 0, None)
  | inl restConfig =>
  kc <- newForConfig restConfig ;;
  match kc with
  | inr err =>
      log (LogError (Some err)
        "Error creating a remote client while deleting Machine, won't retry" []) ;;
      ret (false, 0, None)
  | inl kubeClient =>
  n <- nodesGet kubeClient nodeName ;;
  match n with
  | inr err =>
      if IsNotFound err then
        log (LogError (Some err)
          "Could not find node from noderef, it may have already been deleted" []) ;;
        ret (true, 0, None)
      else
        ret (false, 0,
             Some (wrapError
               ("unable to get node " +:+ strconv_Quote env nodeName +:+ ": " +:+ Error err)
               err))
  | inl node =>
  let drainer :=
    {| Client := kubeClient;
       Force := true;
       IgnoreAllDaemonSets := true;
       DeleteEmptyDirData := true;
       GracePeriodSeconds := -1;
       Timeout := 20 * Second;
       SkipWaitForDeleteTimeoutSeconds := 0 |} in
  let drainer :=
    if IsNodeUnreachable env node
    then set_SkipWaitForDeleteTimeoutSeconds (60 * 5) drainer
    else drainer in
  cerr <- runCordonOrUncordon drainer node true ;;
  match cerr with
  | Some err =>
      log (LogError (Some err) "Cordon failed" []) ;;
      ret (false, 0,
           Some (errorString
             ("unable to cordon node " +:+ nodeName +:+ ": " +:+ Error err)))
  | None =>
  derr <- runNodeDrain drainer (node_Name node) ;;
  match derr with
  | Some err =>
      log (LogError (Some err) "Drain failed, retry in 20s" [("node name", nodeName)]) ;;
      ret (false, 20 * Second, None)
  | None =>
      log (LogInfo 0 "Drain successful" [("node name", nodeName)]) ;;
      ret (true, 0, None)
  end end end end end end.

Definition Reconcile (req : Request) : M (Result * option error) :=
  r <- Get_VMI (req_NamespacedName req) ;;
  match r with
  | inr err =>
      if IsNotFound err then
        log (LogInfo 4
          ("Can't find virtualMachineInstance "
           +:+ NamespacedName_String (req_NamespacedName req)
           +:+ "; it was already deleted.") []) ;;
        ret (Result_zero, None)
      else
        log (LogError (Some err) ("failed to read VMI " +:+ req_Name req) []) ;;
        ret (Result_zero, Some err)
  | inl vmi =>
  let nodeName := vmi_Status_EvacuationNodeName vmi in
  if (String.length nodeName =? 0)%nat then
    log (LogInfo 4
      ("The virtualMachineInstance "
       +:+ NamespacedName_String (req_NamespacedName req)
       +:+ " is not marked for deletion. Nothing to do here") []) ;;
    ret (Result_zero, None)
  else
  c <- getCluster vmi ;;
  match c with
  | inr err =>
      log (LogError (Some err) "Can't get the cluster form the VirtualMachineInstance" []) ;;
      ret (Result_zero, Some err)
  | inl cluster =>
  d <- drainNode cluster nodeName ;;
  let '(nodeDrained, retryDuration, err) := d in
  if notNil err || negb nodeDrained then
    ret ({| Requeue := false; RequeueAfter := retryDuration |}, err)
  else
  let propagationPolicy := DeletePropagationForeground in
  derr <- Delete vmi {| PropagationPolicy := Some propagationPolicy |} ;;
  match derr with
  | Some err =>
      if negb (IsAlreadyExists err) then
        ret ({| Requeue := false; RequeueAfter := 20 * Second |}, Some err)
      else
        ret (Result_zero, None)
  | None => ret (Result_zero, None)
  end end end.

(** ** Reading a trace *)

(** The instance's delete call. *)
Definition is_delete (ev : Event) : bool :=
  match ev with EvDelete _ _ _ => true | _ => false end.

(** The cordon call of the drain helper. *)
Definition is_cordon (ev : Event) : bool :=
  match ev with EvCordon _ _ _ _ => true | _ => false end.

(** The eviction run of the drain helper. *)
Definition is_eviction (ev : Event) : bool :=
  match ev with EvDrain _ _ _ => true | _ => false end.

(** A call on the workload cluster's API server. *)
Definition is_remote_call (ev : Event) : bool :=
  match ev with
  | EvGetNode _ _ _ | EvCordon _ _ _ _ | EvDrain _ _ _ => true
  | _ => false
  end.

(** The fetch of the Cluster object. *)
Definition is_cluster_lookup (ev : Event) : bool :=
  match ev with EvGetCluster _ _ => true | _ => false end.

(** The steps that turn the credential secret into a remote client. *)
Definition is_credential_step (ev : Event) : bool :=
  match ev with
  | EvGetSecret _ _ | EvRESTConfig _ _ | EvNewForConfig _ _ => true
  | _ => false
  end.

(** A line logged with [logger.Error] and a non-nil error. *)
Definition is_error_log (ev : Event) : bool :=
  match ev with EvLog (LogError (Some _) _ _) => true | _ => false end.

(** The node fetch answered not-found. *)
Definition node_not_found (ev : Event) : bool :=
  match ev with EvGetNode _ _ (inr err) => IsNotFound err | _ => false end.

(** The cordon call answered an error. *)
Definition cordon_failed (ev : Event) : bool :=
  match ev with EvCordon _ _ _ (Some _) => true | _ => false end.

(** The eviction run answered an error (a timeout is one). *)
Definition drain_failed (ev : Event) : bool :=
  match ev with EvDrain _ _ (Some _) => true | _ => false end.

(** The secret is missing, it has no [value] key, the kubeconfig does not
    parse, or no client can be built from it. *)
Definition credential_failed (ev : Event) : bool :=
  match ev with
  | EvGetSecret _ (inr _) => true
  | EvGetSecret _ (inl secret) =>
      match secret_Data secret !! "value" with None => true | Some _ => false end
  | EvRESTConfig _ (inr _) => true
  | EvNewForConfig _ (inr _) => true
  | _ => false
  end.

End Controller.

Arguments EvGetVMI {env}.
Arguments EvGetCluster {env}.
Arguments EvGetSecret {env}.
Arguments EvRESTConfig {env}.
Arguments EvNewForConfig {env}.
Arguments EvGetNode {env}.
Arguments EvCordon {env}.
Arguments EvDrain {env}.
Arguments EvDelete {env}.
Arguments EvLog {env}.
Arguments is_delete {env}.
Arguments is_cordon {env}.
Arguments is_eviction {env}.
Arguments is_remote_call {env}.
Arguments is_cluster_lookup {env}.
Arguments is_credential_step {env}.
Arguments is_error_log {env}.
Arguments node_not_found {env}.
Arguments cordon_failed {env}.
Arguments drain_failed {env}.
Arguments credential_failed {env}.

(** The three parts of a run. *)
Definition run_outcome {env A} (r : Outcome A * State env * Trace env) : Outcome A :=
  fst (fst r).
Definition run_state {env A} (r : Outcome A * State env * Trace env) : State env :=
  snd (fst r).
Definition run_trace {env A} (r : Outcome A * State env * Trace env) : Trace env :=
  snd r.

(** ** A scripted world

    One answer per operation, whatever the arguments; the state counts the
    calls made so far.  The label names are the ones of the api packages, a
    node is unreachable when its Ready condition is Unknown, and the remote
    client is named by the kubeconfig it was built from. *)
Record Script := {
  script_vmi : VirtualMachineInstance + error;
  script_cluster : Cluster + error;
  script_secret : Secret + error;
  script_restConfig : option error;
  script_client : option error;
  script_node : Node + error;
  script_cordon : option error;
  script_drain : option error;
  script_delete : option error
}.

Fixpoint readyUnknown (conditions : list NodeCondition) : bool :=
  match conditions with
  | [] => false
  | c :: rest =>
      if String.eqb (cond_Type c) "Ready"
      then String.eqb (cond_Status c) "Unknown"
      else readyUnknown rest
  end.

Definition quoted (s : string) : string :=
  String (Ascii.ascii_of_nat 34) s +:+ String (Ascii.ascii_of_nat 34) EmptyString.

Definition scripted (s : Script) : Env :=
  {| State := nat;
     RestConfig := string;
     Clientset := string;
     KubevirtMachineNamespaceLabel := "capk.cluster.x-k8s.io/kubevirt-machine-namespace";
     ClusterLabelName := "cluster.x-k8s.io/cluster-name";
     strconv_Quote := quoted;
     IsNodeUnreachable := fun node => readyUnknown (node_Status_Conditions node);
     Client_Get_VMI := fun _ n => (script_vmi s, S n);
     Client_Get_Cluster := fun _ n => (script_cluster s, S n);
     Client_Get_Secret := fun _ n => (script_secret s, S n);
     Client_Delete := fun _ _ n => (script_delete s, S n);
     RESTConfigFromKubeConfig := fun data n =>
       (match script_restConfig s with Some err => inr err | None => inl data end, S n);
     NewForConfig := fun cfg n =>
       (match script_client s with Some err => inr err | None => inl cfg end, S n);
     Nodes_Get := fun _ _ n => (script_node s, S n);
     RunCordonOrUncordon := fun _ _ _ n => (script_cordon s, S n);
     RunNodeDrain := fun _ _ n => (script_drain s, S n) |}.

(** Instance default/vm-7 of cluster default/tenant, evacuating node-7. *)
Definition vm7 : VirtualMachineInstance :=
  {| vmi_Namespace := "default";
     vmi_Name := "vm-7";
     vmi_Labels :=
       <["capk.cluster.x-k8s.io/kubevirt-machine-namespace" := "default"]>
       (<["cluster.x-k8s.io/cluster-name" := "tenant"]> ∅);
     vmi_Status_EvacuationNodeName := "node-7" |}.

Definition req7 : Request :=
  {| req_NamespacedName := {| nn_Namespace := "default"; nn_Name := "vm-7" |} |}.

Definition tenant : Cluster :=
  {| cluster_Namespace := "default";
     cluster_Name := "tenant";
     cluster_Spec_InfrastructureRef :=
       Some {| ref_Namespace := "default"; ref_Name := "tenant" |} |}.

Definition tenantSecret : Secret :=
  {| secret_Data := <["value" := "apiVersion: v1"]> ∅ |}.

Definition node7 : Node :=
  {| node_Name := "node-7";
     node_Spec_Unschedulable := false;
     node_Status_Conditions := [{| cond_Type := "Ready"; cond_Status := "True" |}] |}.

Definition node7_unreachable : Node :=
  {| node_Name := "node-7";
     node_Spec_Unschedulable := false;
     node_Status_Conditions := [{| cond_Type := "Ready"; cond_Status := "Unknown" |}] |}.

(** The same instance, not under evacuation. *)
Definition vm7_idle : VirtualMachineInstance :=
  {| vmi_Namespace := "default";
     vmi_Name := "vm-7";
     vmi_Labels := vmi_Labels vm7;
     vmi_Status_EvacuationNodeName := "" |}.

(** The same instance without its labels, and with the namespace label only. *)
Definition vm7_unlabelled : VirtualMachineInstance :=
  {| vmi_Namespace := "default";
     vmi_Name := "vm-7";
     vmi_Labels := ∅;
     vmi_Status_EvacuationNodeName := "node-7" |}.

Definition vm7_half_labelled : VirtualMachineInstance :=
  {| vmi_Namespace := "default";
     vmi_Name := "vm-7";
     vmi_Labels :=
       <["capk.cluster.x-k8s.io/kubevirt-machine-namespace" := "default"]> ∅;
     vmi_Status_EvacuationNodeName := "node-7" |}.

Definition foreground : DeleteOptions :=
  {| PropagationPolicy := Some DeletePropagationForeground |}.

Definition notFound (what : string) : error :=
  StatusError StatusReasonNotFound (what +:+ " not found").

Definition alreadyExists (what : string) : error :=
  StatusError StatusReasonAlreadyExists (what +:+ " already exists").

Definition serverError : error :=
  StatusError (StatusReasonOther "InternalError") "internal error".

Definition drainTimeout : error :=
  errorString "drain did not complete within 20s".

(** Everything succeeds: the node is drained and the instance deleted. *)
Definition happy : Script :=
  {| script_vmi := inl vm7;
     script_cluster := inl tenant;
     script_secret := inl tenantSecret;
     script_restConfig := None;
     script_client := None;
     script_node := inl node7;
     script_cordon := None;
     script_drain := None;
     script_delete := None |}.

Definition with_vmi (r : VirtualMachineInstance + error) (s : Script) : Script :=
  {| script_vmi := r;
     script_cluster := script_cluster s;
     script_secret := script_secret s;
     script_restConfig := script_restConfig s;
     script_client := script_client s;
     script_node := script_node s;
     script_cordon := script_cordon s;
     script_drain := script_drain s;
     script_delete := script_delete s |}.

Definition with_cluster (r : Cluster + error) (s : Script) : Script :=
  {| script_vmi := script_vmi s;
     script_cluster := r;
     script_secret := script_secret s;
     script_restConfig := script_restConfig s;
     script_client := script_client s;
     script_node := script_node s;
     script_cordon := script_cordon s;
     script_drain := script_drain s;
     script_delete := script_delete s |}.

Definition with_secret (r : Secret + error) (s : Script) : Script :=
  {| script_vmi := script_vmi s;
     script_cluster := script_cluster s;
     script_secret := r;
     script_restConfig := script_restConfig s;
     script_client := script_client s;
     script_node := script_node s;
     script_cordon := script_cordon s;
     script_drain := script_drain s;
     script_delete := script_delete s |}.

Definition with_node (r : Node + error) (s : Script) : Script :=
  {| script_vmi := script_vmi s;
     script_cluster := script_cluster s;
     script_secret := script_secret s;
     script_restConfig := script_restConfig s;
     script_client := script_client s;
     script_node := r;
     script_cordon := script_cordon s;
     script_drain := script_drain s;
     script_delete := script_delete s |}.

Definition with_cordon (r : option error) (s : Script) : Script :=
  {| script_vmi := script_vmi s;
     script_cluster := script_cluster s;
     script_secret := script_secret s;
     script_restConfig := script_restConfig s;
     script_client := script_client s;
     script_node := script_node s;
     script_cordon := r;
     script_drain := script_drain s;
     script_delete := script_delete s |}.

Definition with_drain (r : option error) (s : Script) : Script :=
  {| script_vmi := script_vmi s;
     script_cluster := script_cluster s;
     script_secret := script_secret s;
     script_restConfig := script_restConfig s;
     script_client := script_client s;
     script_node := script_node s;
     script_cordon := script_cordon s;
     script_drain := r;
     script_delete := script_delete s |}.

Definition with_delete (r : option error) (s : Script) : Script :=
  {| script_vmi := script_vmi s;
     script_cluster := script_cluster s;
     script_secret := script_secret s;
     script_restConfig := script_restConfig s;
     script_client := script_client s;
     script_node := script_node s;
     script_cordon := script_cordon s;
     script_drain := script_drain s;
     script_delete := r |}.

(** ** The logging sinks of the drain helper *)

Section Sinks.

Variable env : Env.

(** writer implements io.Writer interface as a pass-through for klog. *)
Record writer := {
  logFunc : string -> list (string * string) -> M env unit
}.

(** Write passes string(p) into writer's logFunc and always returns len(p). *)
Definition Write (w : writer) (p : string) : M env (Z * option error) :=
  bind env (logFunc w p []) (fun _ => ret env (Z.of_nat (String.length p), None)).

(** [Out: writer{logger.Info}] *)
Definition drainer_Out : writer :=
  {| logFunc := fun msg keysAndValues => log env (LogInfo 0 msg keysAndValues) |}.

(** [ErrOut: writer{func(msg, keysAndValues...) { logger.Error(nil, msg, keysAndValues...) }}] *)
Definition drainer_ErrOut : writer :=
  {| logFunc := fun msg keysAndValues => log env (LogError None msg keysAndValues) |}.

(** A caller of a writer that hands it one chunk after another, keeping
    what each Write returns. *)
Fixpoint writeEach (w : writer) (chunks : list string) : M env (list (Z * option error)) :=
  match chunks with
  | [] => ret env []
  | p :: rest =>
      bind env (Write w p) (fun r =>
      bind env (writeEach w rest) (fun rs =>
      ret env (r :: rs)))
  end.

(** ** More readers of a trace *)

(** The node fetch answered an error other than not-found. *)
Definition node_fetch_failed (ev : Event env) : bool :=
  match ev with EvGetNode _ _ (inr err) => negb (IsNotFound err) | _ => false end.

(** The eviction run answered no error. *)
Definition drain_succeeded (ev : Event env) : bool :=
  match ev with EvDrain _ _ None => true | _ => false end.

(** The delete call answered an error that Reconcile does not let pass. *)
Definition delete_rejected (ev : Event env) : bool :=
  match ev with
  | EvDelete _ _ (Some err) => negb (IsAlreadyExists err)
  | _ => false
  end.

(** The place of a call in the sequence fetch, resolve, credentials, client,
    node, cordon, drain, delete; a log line has none. *)
Definition call_rank (ev : Event env) : option nat :=
  match ev with
  | EvGetVMI _ _ => Some 0%nat
  | EvGetCluster _ _ => Some 1%nat
  | EvGetSecret _ _ => Some 2%nat
  | EvRESTConfig _ _ => Some 3%nat
  | EvNewForConfig _ _ => Some 4%nat
  | EvGetNode _ _ _ => Some 5%nat
  | EvCordon _ _ _ _ => Some 6%nat
  | EvDrain _ _ _ => Some 7%nat
  | EvDelete _ _ _ => Some 8%nat
  | EvLog _ => None
  end.

Fixpoint call_ranks (tr : Trace env) : list nat :=
  match tr with
  | [] => []
  | ev :: rest =>
      match call_rank ev with
      | Some n => n :: call_ranks rest
      | None => call_ranks rest
      end
  end.

End Sinks.

Arguments logFunc {env}.
Arguments Write {env}.
Arguments writeEach {env}.
Arguments node_fetch_failed {env}.
Arguments drain_succeeded {env}.
Arguments delete_rejected {env}.
Arguments call_rank {env}.
Arguments call_ranks {env}.

(** The helper that drainNode builds in the scripted world for a node that
    is not unreachable. *)
Definition drainer7 : Helper string :=
  {| Client := "apiVersion: v1";
     Force := true;
     IgnoreAllDaemonSets := true;
     DeleteEmptyDirData := true;
     GracePeriodSeconds := -1;
     Timeout := 20 * Second;
     SkipWaitForDeleteTimeoutSeconds := 0 |}.

(** The same instance in another namespace, under another name and with one
    more label. *)
Definition vm7_elsewhere : VirtualMachineInstance :=
  {| vmi_Namespace := "other";
     vmi_Name := "vm-8";
     vmi_Labels := <["app" := "db"]> (vmi_Labels vm7);
     vmi_Status_EvacuationNodeName := "node-7" |}.

(** * Properties *)

(** The run of a function: unfold the monad and split on every answer of
    the outside world, innermost first. *)
Ltac unfold_monad :=
  unfold Get_VMI, Get_Cluster, Get_Secret, Delete, restConfigFromKubeConfig,
    newForConfig, nodesGet, runCordonOrUncordon, runNodeDrain,
    call, log, bind, ret, panic in *.

Ltac split_answer H :=
  match type of H with
  | context [match ?x with _ => _ end] =>
      lazymatch x with
      | context [match _ with _ => _ end] => fail
      | _ => destruct x eqn:?
      end
  end.

Ltac run_in H :=
  unfold_monad; cbv beta in H;
  repeat (split_answer H; cbn [notNil orb negb] in H);
  inversion H; subst; clear H.

(** Where an event of a trace comes from: split the trace at each append
    and compare the event with each recorded one. *)
Ltac in_cases :=
  repeat match goal with
  | H : In _ (_ ++ _) |- _ => apply in_app_or in H
  | H : In _ (_ :: _) |- _ => cbn [In] in H
  | H : In _ [] |- _ => destruct H
  | H : _ \/ _ |- _ => destruct H
  | H : False |- _ => destruct H
  | H : @eq (Event _) _ _ |- _ => inversion H; subst; clear H
  end.

(** Evaluate the readers of a trace on a trace that is known event by
    event, using what is known of the answers. *)
Ltac read_trace :=
  cbn [existsb forallb app orb andb negb is_delete is_cordon is_eviction
       is_remote_call is_cluster_lookup is_credential_step is_error_log
       node_not_found cordon_failed drain_failed credential_failed] in *;
  repeat match goal with
  | E : IsNotFound ?e = _, H : context [IsNotFound ?e] |- _ => rewrite E in H
  | E : (_ !! _) = _, H : context [match (_ !! _) with _ => _ end] |- _ =>
      rewrite E in H
  end;
  cbn [orb andb negb] in *.

Section Properties.

Variable env : Env.

Lemma run_parts {A} (r : Outcome A * State env * Trace env)
    (out : Outcome A) (w' : State env) :
  run_outcome r = out -> run_state r = w' -> r = (out, w', run_trace r).
Proof.
  destruct r as [[o s] t]. cbn. intros -> ->. reflexivity.
Qed.

Lemma run_eta {A} (r : Outcome A * State env * Trace env) :
  r = (run_outcome r, run_state r, run_trace r).
Proof.
  apply run_parts; reflexivity.
Qed.

Lemma nth_error_event (tr : Trace env) (n : nat) (ev : Event env) :
  nth_error tr n = Some ev -> In ev tr.
Proof.
  apply nth_error_In.
Qed.

Lemma In_existsb (p : Event env -> bool) (ev : Event env) (tr : Trace env) :
  In ev tr -> p ev = true -> existsb p tr = true.
Proof.
  intros Hin Hp. apply existsb_exists. exists ev. split; assumption.
Qed.

(** Cluster resolution never panics and calls nothing but the Cluster fetch. *)
Lemma getCluster_returns vmi w :
  exists r w' tr,
    getCluster env vmi w = (Returned r, w', tr) /\
    forallb is_cluster_lookup tr = true.
Proof.
  unfold getCluster.
  destruct (vmi_Labels vmi !! KubevirtMachineNamespaceLabel env) as [clusterNS|];
    [destruct (vmi_Labels vmi !! ClusterLabelName env) as [clusterName|]|].
  - unfold_monad.
    destruct (Client_Get_Cluster env _ w) as [[cluster|err] w1];
      eexists _, _, _; split; reflexivity.
  - unfold_monad. eexists _, _, _; split; reflexivity.
  - unfold_monad. eexists _, _, _; split; reflexivity.
Qed.

(** drainNode never touches the instance. *)
Lemma drainNode_no_delete cluster nodeName w out w' tr :
  drainNode env cluster nodeName w = (out, w', tr) ->
  existsb is_delete tr = false.
Proof.
  intros H. unfold drainNode, getKubeconfigForWorkloadCluster in H.
  run_in H; reflexivity.
Qed.

(** What Reconcile does with the answer of the delete call. *)
Lemma Reconcile_after_delete req w out w' tr vmi opts err :
  Reconcile env req w = (out, w', tr) ->
  In (EvDelete vmi opts (Some err)) tr ->
  out = Returned
    (if IsAlreadyExists err
     then (Result_zero, None)
     else ({| Requeue := false; RequeueAfter := 20 * Second |}, Some err)).
Proof.
  intros H Hin.
  unfold Reconcile, getCluster in H.
  run_in H.
  all: in_cases.
  all: try match goal with
       | H : In _ ?t, D : drainNode _ _ _ _ = (_, _, ?t) |- _ =>
           apply drainNode_no_delete in D;
           apply (In_existsb is_delete) in H; [congruence | reflexivity]
       end.
  match goal with
  | H : negb (IsAlreadyExists _) = true |- _ =>
      apply negb_true_iff in H; rewrite H
  end.
  reflexivity.
  match goal with
  | H : negb (IsAlreadyExists _) = false |- _ =>
      apply negb_false_iff in H; rewrite H
  end.
  reflexivity.
Qed.

(** ** The drain operation *)

(** C10: whatever the outside world answers, drainNode's three results have
    the shape its comment describes: an error comes with done = false and no
    retry time, a retry time comes with done = false and no error, and
    done = true comes with neither.  The only run that returns nothing is the
    nil dereference of a cluster without infrastructure reference, before any
    call is made. *)
Theorem drainNode_result_shape (cluster : Cluster) (nodeName : string) (w : State env) :
  match drainNode env cluster nodeName w with
  | (Returned (done, retry, err), _, _) =>
      (err <> None -> done = false /\ retry = 0) /\
      (retry <> 0 -> done = false /\ err = None) /\
      (done = true -> retry = 0 /\ err = None)
  | (Panicked _, _, tr) =>
      cluster_Spec_InfrastructureRef cluster = None /\ tr = []
  end.
Proof.
  destruct (drainNode env cluster nodeName w) as [[out w'] tr] eqn:H.
  unfold drainNode, getKubeconfigForWorkloadCluster in H.
  run_in H.
  all: try (split; [assumption | reflexivity]).
  all: repeat split; intros; congruence.
Qed.

(** C9: in every run of drainNode that fetched a node, the drain helper
    handed to the cordon call (and to the eviction run, when it is reached)
    has SkipWaitForDeleteTimeoutSeconds = 300 when the node is classified
    unreachable, and the zero default otherwise. *)
Theorem drainNode_unreachable_tolerance
    (cluster : Cluster) (nodeName : string) (w w' : State env)
    (out : Outcome (bool * Duration * option error)) (tr : Trace env)
    (c : Clientset env) (name : string) (node : Node) :
  drainNode env cluster nodeName w = (out, w', tr) ->
  In (EvGetNode c name (inl node)) tr ->
  exists drainer r,
    In (EvCordon drainer node true r) tr /\
    SkipWaitForDeleteTimeoutSeconds drainer
      = (if IsNodeUnreachable env node then 300 else 0) /\
    Timeout drainer = 20 * Second /\
    (forall d n b r', In (EvCordon d n b r') tr -> d = drainer) /\
    (forall d n r', In (EvDrain d n r') tr -> d = drainer /\ n = node_Name node).
Proof.
  intros H Hin.
  unfold drainNode, getKubeconfigForWorkloadCluster in H.
  run_in H; in_cases.
  all: eexists _, _; split; [right; right; right; right; left; reflexivity|].
  all: split;
    [match goal with E : IsNodeUnreachable _ _ = _ |- _ => rewrite E end;
     reflexivity|].
  all: split; [reflexivity|].
  all: split; intros; in_cases; auto.
Qed.

(** C3: a run of drainNode whose node fetch answers not-found returns
    (true, 0, nil) and makes no cordon call and no eviction run; a run of
    Reconcile with such a node fetch goes on to the delete call, on the
    instance it fetched. *)
Theorem node_not_found_counts_as_drained :
  (forall cluster nodeName w out w' tr,
     drainNode env cluster nodeName w = (out, w', tr) ->
     existsb node_not_found tr = true ->
     out = Returned (true, 0, None) /\
     existsb is_cordon tr = false /\
     existsb is_eviction tr = false) /\
  (forall req w out w' tr,
     Reconcile env req w = (out, w', tr) ->
     existsb node_not_found tr = true ->
     exists vmi r,
       In (EvGetVMI (req_NamespacedName req) (inl vmi)) tr /\
       In (EvDelete vmi {| PropagationPolicy := Some DeletePropagationForeground |} r) tr /\
       existsb is_cordon tr = false /\
       existsb is_eviction tr = false).
Proof.
  split.
  - intros cluster nodeName w out w' tr H Hnf.
    unfold drainNode, getKubeconfigForWorkloadCluster in H.
    run_in H; read_trace; try discriminate.
    all: repeat split.
  - intros req w out w' tr H Hnf.
    unfold Reconcile, getCluster, drainNode, getKubeconfigForWorkloadCluster in H.
    run_in H; read_trace; try discriminate.
    all: eexists _, _; split; [left; reflexivity|].
    all: split; [|split; reflexivity].
    all: cbn [In]; intuition.
Qed.

(** C4: a run of drainNode whose eviction run answers an error (a timeout
    included) returns (false, 20 s, nil); a run of Reconcile with such an
    eviction run returns a requeue after 20 s with a nil error, and makes no
    delete call. *)
Theorem drain_failure_requeues_without_error :
  (forall cluster nodeName w out w' tr,
     drainNode env cluster nodeName w = (out, w', tr) ->
     existsb drain_failed tr = true ->
     out = Returned (false, 20 * Second, None)) /\
  (forall req w out w' tr,
     Reconcile env req w = (out, w', tr) ->
     existsb drain_failed tr = true ->
     out = Returned ({| Requeue := false; RequeueAfter := 20 * Second |}, None) /\
     existsb is_delete tr = false).
Proof.
  split.
  - intros cluster nodeName w out w' tr H Hf.
    unfold drainNode, getKubeconfigForWorkloadCluster in H.
    run_in H; read_trace; try discriminate.
    all: reflexivity.
  - intros req w out w' tr H Hf.
    unfold Reconcile, getCluster, drainNode, getKubeconfigForWorkloadCluster in H.
    run_in H; read_trace; try discriminate.
    all: split; reflexivity.
Qed.

(** C5: a run of drainNode whose cordon call answers an error returns
    (false, 0, err), where err is the non-nil error that names the node
    drainNode was given and carries the message of the cordon call's error,
    and makes no eviction run; a run of Reconcile with such a cordon call
    returns that very error (built on the evacuation node of the instance it
    fetched and on the cordon call's error) with the zero result, and makes
    neither an eviction run nor a delete call. *)
Theorem cordon_failure_is_surfaced :
  (forall cluster nodeName w out w' tr drainer node desired cerr,
     drainNode env cluster nodeName w = (out, w', tr) ->
     In (EvCordon drainer node desired (Some cerr)) tr ->
     out = Returned (false, 0,
       Some (errorString
         ("unable to cordon node " +:+ nodeName +:+ ": " +:+ Error cerr))) /\
     existsb is_eviction tr = false) /\
  (forall req w out w' tr drainer node desired cerr,
     Reconcile env req w = (out, w', tr) ->
     In (EvCordon drainer node desired (Some cerr)) tr ->
     existsb is_eviction tr = false /\
     existsb is_delete tr = false /\
     exists vmi,
       In (EvGetVMI (req_NamespacedName req) (inl vmi)) tr /\
       out = Returned (Result_zero,
         Some (errorString
           ("unable to cordon node " +:+ vmi_Status_EvacuationNodeName vmi
            +:+ ": " +:+ Error cerr)))).
Proof.
  split.
  - intros cluster nodeName w out w' tr drainer node desired cerr H Hin.
    unfold drainNode, getKubeconfigForWorkloadCluster in H.
    run_in H; in_cases.
    all: split; reflexivity.
  - intros req w out w' tr drainer node desired cerr H Hin.
    unfold Reconcile, getCluster, drainNode, getKubeconfigForWorkloadCluster in H.
    run_in H; in_cases.
    all: split; [reflexivity | split; [reflexivity|]].
    all: eexists; split; [left; reflexivity | reflexivity].
Qed.

(** ** The reconciler *)

(** C6: a run of Reconcile in which the credential secret cannot be fetched,
    has no [value] key, does not parse as a kubeconfig, or yields no client,
    ends with an error line in the log and returns the zero result with a nil
    error; it makes no call on the workload cluster and no delete call. *)
Theorem credential_failure_is_a_logged_noop
    (req : Request) (w w' : State env)
    (out : Outcome (Result * option error)) (tr : Trace env) :
  Reconcile env req w = (out, w', tr) ->
  existsb credential_failed tr = true ->
  out = Returned (Result_zero, None) /\
  existsb is_error_log tr = true /\
  existsb is_remote_call tr = false /\
  existsb is_delete tr = false.
Proof.
  intros H Hf.
  unfold Reconcile, getCluster, drainNode, getKubeconfigForWorkloadCluster in H.
  run_in H; read_trace; try discriminate.
  all: repeat split.
Qed.

(** C7: when the fetched instance has an empty EvacuationNodeName, Reconcile
    returns the zero result with a nil error, leaves the world as the fetch
    left it, and its trace holds no call on the workload cluster, no Cluster
    fetch, no credential step and no delete call. *)
Theorem no_evacuation_is_a_noop
    (req : Request) (w w1 : State env) (vmi : VirtualMachineInstance) :
  Client_Get_VMI env (req_NamespacedName req) w = (inl vmi, w1) ->
  vmi_Status_EvacuationNodeName vmi = "" ->
  exists tr,
    Reconcile env req w = (Returned (Result_zero, None), w1, tr) /\
    existsb is_remote_call tr = false /\
    existsb is_cluster_lookup tr = false /\
    existsb is_credential_step tr = false /\
    existsb is_delete tr = false.
Proof.
  intros Hget Hname.
  unfold Reconcile. unfold_monad. rewrite Hget, Hname. cbn [String.length Nat.eqb].
  eexists. split; [reflexivity|]. repeat split.
Qed.

(** C8: getCluster fails, without any call, with an error that names the
    missing label when the cluster-namespace label is absent, or when it is
    present and the cluster-name label is absent; with both present it
    fetches the Cluster under that namespace and name, returns it when the
    fetch succeeds and an error wrapping the fetch error otherwise.  When
    getCluster fails for an instance under evacuation, Reconcile logs the
    error and returns it with the zero result. *)
Theorem cluster_resolution :
  (forall vmi w,
     vmi_Labels vmi !! KubevirtMachineNamespaceLabel env = None ->
     getCluster env vmi w =
       (Returned (inr (errorString
          ("can't find the cluster namespace from the VM; missing "
           +:+ KubevirtMachineNamespaceLabel env +:+ " label"))), w, [])) /\
  (forall vmi w clusterNS,
     vmi_Labels vmi !! KubevirtMachineNamespaceLabel env = Some clusterNS ->
     vmi_Labels vmi !! ClusterLabelName env = None ->
     getCluster env vmi w =
       (Returned (inr (errorString
          ("can't find the cluster name from the VM; missing "
           +:+ ClusterLabelName env +:+ " label"))), w, [])) /\
  (forall vmi w clusterNS clusterName r w1,
     vmi_Labels vmi !! KubevirtMachineNamespaceLabel env = Some clusterNS ->
     vmi_Labels vmi !! ClusterLabelName env = Some clusterName ->
     Client_Get_Cluster env
       {| nn_Namespace := clusterNS; nn_Name := clusterName |} w = (r, w1) ->
     getCluster env vmi w =
       (Returned
          match r with
          | inl cluster => inl cluster
          | inr err =>
              inr (wrapError
                ("can't find the cluster " +:+ clusterNS +:+ "/" +:+ clusterName
                 +:+ "; " +:+ Error err) err)
          end,
        w1,
        [EvGetCluster {| nn_Namespace := clusterNS; nn_Name := clusterName |} r])) /\
  (forall req w vmi w1 err w2 t,
     Client_Get_VMI env (req_NamespacedName req) w = (inl vmi, w1) ->
     vmi_Status_EvacuationNodeName vmi <> "" ->
     getCluster env vmi w1 = (Returned (inr err), w2, t) ->
     Reconcile env req w =
       (Returned (Result_zero, Some err), w2,
        EvGetVMI (req_NamespacedName req) (inl vmi) :: t ++
        [EvLog (LogError (Some err)
           "Can't get the cluster form the VirtualMachineInstance" [])])).
Proof.
  repeat split.
  - intros vmi w Hns. unfold getCluster. rewrite Hns. reflexivity.
  - intros vmi w clusterNS Hns Hname. unfold getCluster.
    rewrite Hns, Hname. reflexivity.
  - intros vmi w clusterNS clusterName r w1 Hns Hname Hget. unfold getCluster.
    rewrite Hns, Hname. unfold_monad. rewrite Hget.
    destruct r; reflexivity.
  - intros req w vmi w1 err w2 t Hget Hnode Hcluster.
    unfold Reconcile. unfold Get_VMI, call, bind at 1. rewrite Hget.
    destruct (vmi_Status_EvacuationNodeName vmi) as [|a nodeName];
      [congruence|].
    cbn [String.length Nat.eqb].
    unfold bind at 1. rewrite Hcluster.
    unfold_monad. rewrite app_nil_r. reflexivity.
Qed.

(** C2: whenever a delete call is in the trace of a run of Reconcile, it
    carries the foreground propagation policy, and it is the last event of
    the run, made in the world left by a run of drainNode, on the instance's
    evacuation node, that returned done = true with a nil error; no earlier
    event of the run is a delete call. *)
Theorem delete_only_after_drain_done
    (req : Request) (w w' : State env)
    (out : Outcome (Result * option error)) (tr : Trace env)
    (vmi : VirtualMachineInstance) (opts : DeleteOptions) (r : option error) :
  Reconcile env req w = (out, w', tr) ->
  In (EvDelete vmi opts r) tr ->
  PropagationPolicy opts = Some DeletePropagationForeground /\
  exists cluster w0 w1 tr0 tr1 retry,
    drainNode env cluster (vmi_Status_EvacuationNodeName vmi) w0
      = (Returned (true, retry, None), w1, tr1) /\
    Client_Delete env vmi opts w1 = (r, w') /\
    tr = tr0 ++ tr1 ++ [EvDelete vmi opts r] /\
    existsb is_delete (tr0 ++ tr1) = false.
Proof.
  intros H Hin.
  unfold Reconcile, getCluster in H.
  run_in H; in_cases.
  all: try match goal with
       | H : In _ ?t, D : drainNode _ _ _ _ = (_, _, ?t) |- _ =>
           apply drainNode_no_delete in D;
           apply (In_existsb is_delete) in H; [congruence | reflexivity]
       end.
  all: split; [reflexivity|].
  all: match goal with
       | D : drainNode _ ?c _ ?w0 = (Returned (?b, ?d, ?e), ?w1, ?t) |- _ =>
           destruct b, e; try discriminate;
           exists c, w0, w1; eexists [_; _], t; exists d;
           pose proof (drainNode_no_delete _ _ _ _ _ _ D)
       end.
  all: repeat split; try assumption; try reflexivity.
  all: cbn [existsb app is_delete orb]; assumption.
Qed.

End Properties.

(** ** The properties at work in the scripted world *)

(** C1: in the scripted world where the node is drained and the delete call
    answers not-found, Reconcile returns a requeue after 20 s carrying the
    not-found error; it is an AlreadyExists answer that it takes for a
    success. *)
Theorem Reconcile_delete_not_found_is_requeued :
  IsNotFound (notFound "vm-7") = true /\
  existsb is_delete
    (run_trace (Reconcile (scripted (with_delete (Some (notFound "vm-7")) happy))
                  req7 0%nat)) = true /\
  run_outcome (Reconcile (scripted (with_delete (Some (notFound "vm-7")) happy))
                 req7 0%nat)
    = Returned ({| Requeue := false; RequeueAfter := 20 * Second |},
                Some (notFound "vm-7")) /\
  run_outcome (Reconcile (scripted (with_delete (Some (alreadyExists "vm-7")) happy))
                 req7 0%nat)
    = Returned (Result_zero, None).
Proof.
  repeat split; vm_compute; reflexivity.
Qed.

(** The happy run: the delete call is the tenth event, after the drain. *)
Lemma delete_only_after_drain_done_witness :
  In (EvDelete vm7 foreground None)
     (run_trace (Reconcile (scripted happy) req7 0%nat)) /\
  exists cluster w0 w1 tr0 tr1 retry,
    drainNode (scripted happy) cluster "node-7" w0
      = (Returned (true, retry, None), w1, tr1) /\
    Client_Delete (scripted happy) vm7 foreground w1 = (None, 9%nat) /\
    run_trace (Reconcile (scripted happy) req7 0%nat)
      = tr0 ++ tr1 ++ [EvDelete vm7 foreground None] /\
    existsb is_delete (tr0 ++ tr1) = false.
Proof.
  assert (Hin : In (EvDelete vm7 foreground None)
                   (run_trace (Reconcile (scripted happy) req7 0%nat)))
    by (apply (nth_error_event _ _ 9%nat); reflexivity).
  split; [exact Hin|].
  apply (delete_only_after_drain_done (scripted happy) req7 0%nat 9%nat
           (Returned (Result_zero, None))
           (run_trace (Reconcile (scripted happy) req7 0%nat))
           vm7 foreground None);
    [apply run_parts; vm_compute; reflexivity | exact Hin].
Defined.

(** Node node-7 was removed out of band: drained, and the instance deleted. *)
Lemma node_not_found_counts_as_drained_witness :
  (existsb node_not_found
     (run_trace (drainNode (scripted (with_node (inr (notFound "node-7")) happy))
                   tenant "node-7" 0%nat)) = true /\
   run_outcome (drainNode (scripted (with_node (inr (notFound "node-7")) happy))
                  tenant "node-7" 0%nat)
     = Returned (true, 0, None)) /\
  exists vmi r,
    In (EvGetVMI (req_NamespacedName req7) (inl vmi))
       (run_trace (Reconcile (scripted (with_node (inr (notFound "node-7")) happy))
                     req7 0%nat)) /\
    In (EvDelete vmi foreground r)
       (run_trace (Reconcile (scripted (with_node (inr (notFound "node-7")) happy))
                     req7 0%nat)).
Proof.
  set (E := scripted (with_node (inr (notFound "node-7")) happy)).
  assert (Hd : existsb node_not_found
                 (run_trace (drainNode E tenant "node-7" 0%nat)) = true)
    by (vm_compute; reflexivity).
  assert (Hr : existsb node_not_found
                 (run_trace (Reconcile E req7 0%nat)) = true)
    by (vm_compute; reflexivity).
  split.
  - split; [exact Hd|].
    exact (proj1 (proj1 (node_not_found_counts_as_drained E) tenant "node-7" 0%nat
                    _ _ _ (run_eta E _) Hd)).
  - destruct (proj2 (node_not_found_counts_as_drained E) req7 0%nat
                _ _ _ (run_eta E _) Hr)
      as (vmi & r & Hget & Hdel & _).
    exists vmi, r. split; [exact Hget | exact Hdel].
Defined.

(** The eviction run times out: requeue after 20 s, instance kept. *)
Lemma drain_failure_requeues_without_error_witness :
  run_outcome (drainNode (scripted (with_drain (Some drainTimeout) happy))
                 tenant "node-7" 0%nat)
    = Returned (false, 20 * Second, None) /\
  run_outcome (Reconcile (scripted (with_drain (Some drainTimeout) happy)) req7 0%nat)
    = Returned ({| Requeue := false; RequeueAfter := 20 * Second |}, None) /\
  existsb is_delete
    (run_trace (Reconcile (scripted (with_drain (Some drainTimeout) happy))
                  req7 0%nat)) = false.
Proof.
  set (E := scripted (with_drain (Some drainTimeout) happy)).
  split.
  - apply (proj1 (drain_failure_requeues_without_error E) tenant "node-7" 0%nat
             _ _ _ (run_eta E _)).
    vm_compute; reflexivity.
  - apply (proj2 (drain_failure_requeues_without_error E) req7 0%nat
             _ _ _ (run_eta E _)).
    vm_compute; reflexivity.
Defined.

(** The cordon call meets a server error: the error is returned. *)
Lemma cordon_failure_is_surfaced_witness :
  run_outcome (drainNode (scripted (with_cordon (Some serverError) happy))
                 tenant "node-7" 0%nat)
    = Returned (false, 0,
        Some (errorString ("unable to cordon node node-7: " +:+ Error serverError))) /\
  existsb is_eviction
    (run_trace (Reconcile (scripted (with_cordon (Some serverError) happy))
                  req7 0%nat)) = false /\
  existsb is_delete
    (run_trace (Reconcile (scripted (with_cordon (Some serverError) happy))
                  req7 0%nat)) = false /\
  exists vmi,
    In (EvGetVMI (req_NamespacedName req7) (inl vmi))
       (run_trace (Reconcile (scripted (with_cordon (Some serverError) happy))
                     req7 0%nat)) /\
    run_outcome (Reconcile (scripted (with_cordon (Some serverError) happy))
                   req7 0%nat)
      = Returned (Result_zero,
          Some (errorString
            ("unable to cordon node " +:+ vmi_Status_EvacuationNodeName vmi
             +:+ ": " +:+ Error serverError))).
Proof.
  set (E := scripted (with_cordon (Some serverError) happy)).
  split.
  - apply (proj1 (cordon_failure_is_surfaced E) tenant "node-7" 0%nat
             _ _ _ drainer7 node7 true serverError (run_eta E _)).
    apply (nth_error_event _ _ 4%nat); reflexivity.
  - apply (proj2 (cordon_failure_is_surfaced E) req7 0%nat
             _ _ _ drainer7 node7 true serverError (run_eta E _)).
    apply (nth_error_event _ _ 6%nat); reflexivity.
Defined.

(** The secret is missing, or holds no [value] key: nothing is done. *)
Lemma credential_failure_is_a_logged_noop_witness :
  (run_outcome (Reconcile (scripted (with_secret (inr (notFound "secret")) happy))
                  req7 0%nat)
     = Returned (Result_zero, None) /\
   existsb is_delete
     (run_trace (Reconcile (scripted (with_secret (inr (notFound "secret")) happy))
                   req7 0%nat)) = false) /\
  (run_outcome (Reconcile (scripted (with_secret (inl {| secret_Data := ∅ |}) happy))
                  req7 0%nat)
     = Returned (Result_zero, None) /\
   existsb is_delete
     (run_trace (Reconcile (scripted (with_secret (inl {| secret_Data := ∅ |}) happy))
                   req7 0%nat)) = false).
Proof.
  split.
  - set (E := scripted (with_secret (inr (notFound "secret")) happy)).
    destruct (credential_failure_is_a_logged_noop E req7 0%nat
                _ _ _ (run_eta E _))
      as (Hout & _ & _ & Hdel);
      [vm_compute; reflexivity |].
    split; [exact Hout | exact Hdel].
  - set (E := scripted (with_secret (inl {| secret_Data := ∅ |}) happy)).
    destruct (credential_failure_is_a_logged_noop E req7 0%nat
                _ _ _ (run_eta E _))
      as (Hout & _ & _ & Hdel);
      [vm_compute; reflexivity |].
    split; [exact Hout | exact Hdel].
Defined.

(** An instance that is not under evacuation: one fetch, one log line. *)
Lemma no_evacuation_is_a_noop_witness :
  exists tr,
    Reconcile (scripted (with_vmi (inl vm7_idle) happy)) req7 0%nat
      = (Returned (Result_zero, None), 1%nat, tr) /\
    existsb is_remote_call tr = false /\
    existsb is_cluster_lookup tr = false /\
    existsb is_credential_step tr = false /\
    existsb is_delete tr = false.
Proof.
  apply (no_evacuation_is_a_noop (scripted (with_vmi (inl vm7_idle) happy))
           req7 0%nat 1%nat vm7_idle); reflexivity.
Defined.

(** The four cases of cluster resolution, on instance vm-7. *)
Lemma cluster_resolution_witness :
  (exists msg,
     run_outcome (getCluster (scripted happy) vm7_unlabelled 0%nat)
       = Returned (inr (errorString msg))) /\
  (exists msg,
     run_outcome (getCluster (scripted happy) vm7_half_labelled 0%nat)
       = Returned (inr (errorString msg))) /\
  getCluster (scripted happy) vm7 0%nat
    = (Returned (inl tenant), 1%nat,
       [EvGetCluster {| nn_Namespace := "default"; nn_Name := "tenant" |} (inl tenant)]) /\
  (exists err,
     run_outcome (Reconcile (scripted (with_cluster (inr (notFound "tenant")) happy))
                    req7 0%nat)
       = Returned (Result_zero, Some err)).
Proof.
  split; [|split; [|split]].
  - eexists.
    rewrite (proj1 (cluster_resolution (scripted happy)) vm7_unlabelled 0%nat);
      [reflexivity | vm_compute; reflexivity].
  - eexists.
    rewrite (proj1 (proj2 (cluster_resolution (scripted happy)))
               vm7_half_labelled 0%nat "default");
      [reflexivity | vm_compute; reflexivity | vm_compute; reflexivity].
  - apply (proj1 (proj2 (proj2 (cluster_resolution (scripted happy))))
             vm7 0%nat "default" "tenant" (inl tenant) 1%nat);
      [vm_compute; reflexivity | vm_compute; reflexivity | reflexivity].
  - set (E := scripted (with_cluster (inr (notFound "tenant")) happy)).
    exists (wrapError
              ("can't find the cluster default/tenant; " +:+ Error (notFound "tenant"))
              (notFound "tenant")).
    rewrite (proj2 (proj2 (proj2 (cluster_resolution E)))
               req7 0%nat vm7 1%nat
               (wrapError
                  ("can't find the cluster default/tenant; "
                   +:+ Error (notFound "tenant"))
                  (notFound "tenant"))
               2%nat
               [EvGetCluster {| nn_Namespace := "default"; nn_Name := "tenant" |}
                  (inr (notFound "tenant"))]);
      [reflexivity | reflexivity | discriminate |].
    apply (proj1 (proj2 (proj2 (cluster_resolution E)))
             vm7 1%nat "default" "tenant" (inr (notFound "tenant")) 2%nat);
      [vm_compute; reflexivity | vm_compute; reflexivity | reflexivity].
Defined.

(** A node whose Ready condition is Unknown gets 300 s, a ready node 0. *)
Lemma drainNode_unreachable_tolerance_witness :
  (exists drainer r,
     In (EvCordon drainer node7_unreachable true r)
        (run_trace (drainNode (scripted (with_node (inl node7_unreachable) happy))
                      tenant "node-7" 0%nat)) /\
     SkipWaitForDeleteTimeoutSeconds drainer = 300) /\
  (exists drainer r,
     In (EvCordon drainer node7 true r)
        (run_trace (drainNode (scripted happy) tenant "node-7" 0%nat)) /\
     SkipWaitForDeleteTimeoutSeconds drainer = 0).
Proof.
  split.
  - set (E := scripted (with_node (inl node7_unreachable) happy)).
    destruct (drainNode_unreachable_tolerance E tenant "node-7" 0%nat
                _ _ _ "apiVersion: v1" "node-7" node7_unreachable (run_eta E _))
      as (drainer & r & Hin & Hskip & _);
      [apply (nth_error_event _ _ 3%nat); reflexivity |].
    exists drainer, r. split; [exact Hin | exact Hskip].
  - set (E := scripted happy).
    destruct (drainNode_unreachable_tolerance E tenant "node-7" 0%nat
                _ _ _ "apiVersion: v1" "node-7" node7 (run_eta E _))
      as (drainer & r & Hin & Hskip & _);
      [apply (nth_error_event _ _ 3%nat); reflexivity |].
    exists drainer, r. split; [exact Hin | exact Hskip].
Defined.

(** * Further properties of the controller *)

Ltac read_more :=
  cbn [existsb app orb andb negb node_fetch_failed drain_succeeded
       delete_rejected] in *;
  read_trace;
  repeat match goal with
  | E : IsNotFound ?e = _ |- context [IsNotFound ?e] => rewrite E
  | E : IsAlreadyExists ?e = _ |- context [IsAlreadyExists ?e] => rewrite E
  | E : negb ?b = true |- _ => apply negb_true_iff in E
  | E : negb ?b = false |- _ => apply negb_false_iff in E
  end;
  cbn [orb andb negb] in *.

Section Coverage.

Variable env : Env.

(** ** Fetching the instance *)

(** X1: when the instance fetch answers not-found, Reconcile makes no other
    call: it logs that the instance was already deleted and returns the zero
    result with a nil error, in the world the fetch left. *)
Theorem absent_instance_is_a_noop
    (req : Request) (w w1 : State env) (err : error) :
  Client_Get_VMI env (req_NamespacedName req) w = (inr err, w1) ->
  IsNotFound err = true ->
  Reconcile env req w =
    (Returned (Result_zero, None), w1,
     [EvGetVMI (req_NamespacedName req) (inr err);
      EvLog (LogInfo 4
        ("Can't find virtualMachineInstance "
         +:+ NamespacedName_String (req_NamespacedName req)
         +:+ "; it was already deleted.") [])]).
Proof.
  intros Hget Hnf. unfold Reconcile. unfold_monad.
  rewrite Hget, Hnf. reflexivity.
Qed.

(** X2: when the instance fetch answers any other error, Reconcile makes no
    other call: it logs the error and returns it, unchanged, with the zero
    result. *)
Theorem instance_fetch_error_is_returned
    (req : Request) (w w1 : State env) (err : error) :
  Client_Get_VMI env (req_NamespacedName req) w = (inr err, w1) ->
  IsNotFound err = false ->
  Reconcile env req w =
    (Returned (Result_zero, Some err), w1,
     [EvGetVMI (req_NamespacedName req) (inr err);
      EvLog (LogError (Some err) ("failed to read VMI " +:+ req_Name req) [])]).
Proof.
  intros Hget Hnf. unfold Reconcile. unfold_monad.
  rewrite Hget, Hnf. reflexivity.
Qed.

(** ** What is asked of the workload cluster *)

(** X3: when the node fetch answers an error other than not-found, Reconcile
    returns an error that wraps it, with no requeue time, and makes no cordon
    call, no eviction run and no delete call. *)
Theorem node_fetch_error_is_surfaced
    (req : Request) (w w' : State env)
    (out : Outcome (Result * option error)) (tr : Trace env)
    (c : Clientset env) (name : string) (err : error) :
  Reconcile env req w = (out, w', tr) ->
  In (EvGetNode c name (inr err)) tr ->
  IsNotFound err = false ->
  out = Returned (Result_zero,
          Some (wrapError
            ("unable to get node " +:+ strconv_Quote env name +:+ ": " +:+ Error err)
            err)) /\
  existsb is_cordon tr = false /\
  existsb is_eviction tr = false /\
  existsb is_delete tr = false.
Proof.
  intros H Hin Hnf.
  unfold Reconcile, getCluster, drainNode, getKubeconfigForWorkloadCluster in H.
  run_in H; in_cases; try congruence.
  repeat split.
Qed.

(** X4: the node that Reconcile asks the workload cluster for is the
    evacuation node of the instance it fetched, never the empty name, and it
    asks only after it fetched the Cluster named by the instance's two
    labels. *)
Theorem Reconcile_fetches_the_evacuation_node
    (req : Request) (w w' : State env)
    (out : Outcome (Result * option error)) (tr : Trace env)
    (c : Clientset env) (name : string) (r : Node + error) :
  Reconcile env req w = (out, w', tr) ->
  In (EvGetNode c name r) tr ->
  exists vmi clusterNS clusterName cluster,
    In (EvGetVMI (req_NamespacedName req) (inl vmi)) tr /\
    name = vmi_Status_EvacuationNodeName vmi /\
    name <> "" /\
    vmi_Labels vmi !! KubevirtMachineNamespaceLabel env = Some clusterNS /\
    vmi_Labels vmi !! ClusterLabelName env = Some clusterName /\
    In (EvGetCluster {| nn_Namespace := clusterNS; nn_Name := clusterName |}
          (inl cluster)) tr.
Proof.
  intros H Hin.
  unfold Reconcile, getCluster, drainNode, getKubeconfigForWorkloadCluster in H.
  run_in H; in_cases.
  all: eexists _, _, _, _.
  all: split; [left; reflexivity|].
  all: split; [reflexivity|].
  all: split;
    [intros Hempty;
     match goal with
     | E : (String.length ?n =? 0)%nat = false |- _ =>
         rewrite Hempty in E; discriminate E
     end|].
  all: split; [eassumption|].
  all: split; [eassumption|].
  all: right; left; reflexivity.
Qed.

(** X5: the node is fetched by the name drainNode was given, with a client
    built from the configuration parsed from the [value] entry of the secret
    named after the cluster's infrastructure reference, with the suffix
    [-kubeconfig], in that reference's namespace. *)
Theorem remote_client_comes_from_the_secret
    (cluster : Cluster) (nodeName : string) (w w' : State env)
    (out : Outcome (bool * Duration * option error)) (tr : Trace env)
    (c : Clientset env) (name : string) (r : Node + error) :
  drainNode env cluster nodeName w = (out, w', tr) ->
  In (EvGetNode c name r) tr ->
  name = nodeName /\
  exists ref secret kubeconfig cfg,
    cluster_Spec_InfrastructureRef cluster = Some ref /\
    In (EvGetSecret
          {| nn_Namespace := ref_Namespace ref;
             nn_Name := ref_Name ref +:+ "-kubeconfig" |} (inl secret)) tr /\
    secret_Data secret !! "value" = Some kubeconfig /\
    In (EvRESTConfig kubeconfig (inl cfg)) tr /\
    In (EvNewForConfig cfg (inl c)) tr.
Proof.
  intros H Hin.
  unfold drainNode, getKubeconfigForWorkloadCluster in H.
  run_in H; in_cases.
  all: split; [reflexivity|].
  all: eexists _, _, _, _.
  all: split; [first [eassumption | reflexivity]|].
  all: split; [left; reflexivity|].
  all: split; [first [eassumption | reflexivity]|].
  all: split; [right; left; reflexivity | right; right; left; reflexivity].
Qed.

(** X6: every cordon call of drainNode asks to cordon (never to uncordon)
    the node it fetched, through a helper that holds the client of that
    fetch and has Force, IgnoreAllDaemonSets and DeleteEmptyDirData set, the
    pod's own grace period (-1) and a timeout of 20 s. *)
Theorem cordon_call_settings
    (cluster : Cluster) (nodeName : string) (w w' : State env)
    (out : Outcome (bool * Duration * option error)) (tr : Trace env)
    (drainer : Helper (Clientset env)) (node : Node) (desired : bool)
    (r : option error) :
  drainNode env cluster nodeName w = (out, w', tr) ->
  In (EvCordon drainer node desired r) tr ->
  desired = true /\
  In (EvGetNode (Client drainer) nodeName (inl node)) tr /\
  Force drainer = true /\
  IgnoreAllDaemonSets drainer = true /\
  DeleteEmptyDirData drainer = true /\
  GracePeriodSeconds drainer = -1 /\
  Timeout drainer = 20 * Second.
Proof.
  intros H Hin.
  unfold drainNode, getKubeconfigForWorkloadCluster in H.
  run_in H; in_cases.
  all: split; [reflexivity|].
  all: split; [right; right; right; left; reflexivity|].
  all: repeat split.
Qed.

(** X7: an eviction run is made only after a cordon call that answered no
    error, with the same helper, and on the name that the fetched node
    itself carries. *)
Theorem eviction_follows_successful_cordon
    (cluster : Cluster) (nodeName : string) (w w' : State env)
    (out : Outcome (bool * Duration * option error)) (tr : Trace env)
    (drainer : Helper (Clientset env)) (name : string) (r : option error) :
  drainNode env cluster nodeName w = (out, w', tr) ->
  In (EvDrain drainer name r) tr ->
  exists node pre post,
    name = node_Name node /\
    tr = pre ++ EvDrain drainer name r :: post /\
    In (EvCordon drainer node true None) pre.
Proof.
  intros H Hin.
  unfold drainNode, getKubeconfigForWorkloadCluster in H.
  run_in H; in_cases.
  all: eexists _, [_; _; _; _; _], _.
  all: split; [reflexivity|].
  all: split; [reflexivity|].
  all: do 4 right; left; reflexivity.
Qed.

(** ** Deleting the instance *)

(** X8: a delete call is made on the instance that was fetched, and only
    when the fetch of its evacuation node answered not-found, or a cordon
    call and the eviction run that follows both answered no error. *)
Theorem delete_only_when_node_gone_or_drained
    (req : Request) (w w' : State env)
    (out : Outcome (Result * option error)) (tr : Trace env)
    (vmi : VirtualMachineInstance) (opts : DeleteOptions) (r : option error) :
  Reconcile env req w = (out, w', tr) ->
  In (EvDelete vmi opts r) tr ->
  In (EvGetVMI (req_NamespacedName req) (inl vmi)) tr /\
  ((exists c err,
      In (EvGetNode c (vmi_Status_EvacuationNodeName vmi) (inr err)) tr /\
      IsNotFound err = true) \/
   (exists drainer node,
      In (EvCordon drainer node true None) tr /\
      In (EvDrain drainer (node_Name node) None) tr)).
Proof.
  intros H Hin.
  unfold Reconcile, getCluster, drainNode, getKubeconfigForWorkloadCluster in H.
  run_in H; in_cases.
  all: split; [left; reflexivity|].
  all: first
    [ left; eexists _, _; split;
        [do 5 right; left; reflexivity | assumption]
    | right; eexists _, _; split;
        [do 6 right; left; reflexivity | do 7 right; left; reflexivity] ].
Qed.

(** X9: what Reconcile returns is decided by the answer of the delete call,
    once it is made: the zero result with a nil error when the call answers
    no error or an error that IsAlreadyExists recognises, and a requeue
    after 20 s carrying the error for any other. *)
Theorem Reconcile_result_after_delete
    (req : Request) (w w' : State env)
    (out : Outcome (Result * option error)) (tr : Trace env)
    (vmi : VirtualMachineInstance) (opts : DeleteOptions) (r : option error) :
  Reconcile env req w = (out, w', tr) ->
  In (EvDelete vmi opts r) tr ->
  out = Returned
    match r with
    | None => (Result_zero, None)
    | Some err =>
        if IsAlreadyExists err
        then (Result_zero, None)
        else ({| Requeue := false; RequeueAfter := 20 * Second |}, Some err)
    end.
Proof.
  intros H Hin.
  unfold Reconcile, getCluster, drainNode, getKubeconfigForWorkloadCluster in H.
  run_in H; in_cases; read_more; reflexivity.
Qed.

(** ** The results of a run *)

(** X10: Reconcile never sets Requeue, and its requeue time is 20 s exactly
    when the eviction run failed or the delete call answered an error that
    is not AlreadyExists, and zero in every other run; a run that panics has
    made no call on the workload cluster and no delete call. *)
Theorem Reconcile_requeue_time (req : Request) (w : State env) :
  match Reconcile env req w with
  | (Returned (res, _), _, tr) =>
      Requeue res = false /\
      RequeueAfter res =
        (if existsb drain_failed tr || existsb delete_rejected tr
         then 20 * Second else 0)
  | (Panicked _, _, tr) =>
      existsb is_remote_call tr = false /\ existsb is_delete tr = false
  end.
Proof.
  destruct (Reconcile env req w) as [[out w'] tr] eqn:H.
  unfold Reconcile, getCluster, drainNode, getKubeconfigForWorkloadCluster in H.
  run_in H; read_more; split; reflexivity.
Qed.

(** X11: drainNode reports done, as (true, 0, nil), exactly in the runs
    where the node fetch answered not-found or the eviction run answered no
    error. *)
Theorem drainNode_done_iff (cluster : Cluster) (nodeName : string) (w : State env) :
  run_outcome (drainNode env cluster nodeName w) = Returned (true, 0, None) <->
  existsb node_not_found (run_trace (drainNode env cluster nodeName w)) = true \/
  existsb drain_succeeded (run_trace (drainNode env cluster nodeName w)) = true.
Proof.
  destruct (drainNode env cluster nodeName w) as [[out w'] tr] eqn:H.
  unfold drainNode, getKubeconfigForWorkloadCluster in H.
  run_in H; cbn [run_outcome run_trace fst snd]; read_more.
  all: split; [intros Hout | intros [Hex | Hex]];
    try discriminate; try (inversion Hout; fail); auto.
Qed.

(** X12: in every run of Reconcile the calls on the outside world follow
    the order fetch, resolve, secret, configuration, client, node, cordon,
    drain, delete: each is made at most once and none after a later one. *)
Theorem calls_follow_the_fixed_order (req : Request) (w : State env) :
  StronglySorted Nat.lt (call_ranks (run_trace (Reconcile env req w))).
Proof.
  destruct (Reconcile env req w) as [[out w'] tr] eqn:H.
  unfold Reconcile, getCluster, drainNode, getKubeconfigForWorkloadCluster in H.
  run_in H; cbn [run_trace snd app call_ranks call_rank].
  all: repeat first [ lia | constructor ].
Qed.

(** ** Cluster resolution *)

(** X13: getCluster reads nothing of the instance but its two cluster
    labels: two instances that agree on them resolve alike, whatever their
    own names, namespaces and other labels. *)
Theorem getCluster_reads_only_the_two_labels
    (vmi1 vmi2 : VirtualMachineInstance) (w : State env) :
  vmi_Labels vmi1 !! KubevirtMachineNamespaceLabel env
    = vmi_Labels vmi2 !! KubevirtMachineNamespaceLabel env ->
  vmi_Labels vmi1 !! ClusterLabelName env
    = vmi_Labels vmi2 !! ClusterLabelName env ->
  getCluster env vmi1 w = getCluster env vmi2 w.
Proof.
  intros Hns Hname. unfold getCluster. rewrite Hns, Hname. reflexivity.
Qed.

(** ** The logging sinks *)

(** X14: chunks written one after another through the helper's Out or
    ErrOut writer are logged one line per chunk, in order and unchanged (as
    info lines for Out, as error lines with a nil error for ErrOut); every
    Write returns the length of its chunk and a nil error, and the world is
    left as it was. *)
Theorem writeEach_logs_every_chunk (chunks : list string) (w : State env) :
  writeEach (drainer_Out env) chunks w =
    (Returned (map (fun p => (Z.of_nat (String.length p), None)) chunks), w,
     map (fun p => EvLog (LogInfo 0 p [])) chunks) /\
  writeEach (drainer_ErrOut env) chunks w =
    (Returned (map (fun p => (Z.of_nat (String.length p), None)) chunks), w,
     map (fun p => EvLog (LogError None p [])) chunks).
Proof.
  induction chunks as [|p rest [IHout IHerr]]; [split; reflexivity|].
  split; cbn [writeEach map].
  - unfold bind at 1. unfold Write, drainer_Out at 1, logFunc, log, bind at 1, ret at 1.
    unfold bind at 1. rewrite IHout. unfold ret. rewrite !app_nil_r. reflexivity.
  - unfold bind at 1. unfold Write, drainer_ErrOut at 1, logFunc, log, bind at 1, ret at 1.
    unfold bind at 1. rewrite IHerr. unfold ret. rewrite !app_nil_r. reflexivity.
Qed.

End Coverage.

(** ** The further properties at work in the scripted world *)

(** The instance is gone before Reconcile runs. *)
Lemma absent_instance_is_a_noop_witness :
  exists tr,
    Reconcile (scripted (with_vmi (inr (notFound "vm-7")) happy)) req7 0%nat
      = (Returned (Result_zero, None), 1%nat, tr) /\
    length tr = 2%nat.
Proof.
  eexists. split.
  - apply (absent_instance_is_a_noop
             (scripted (with_vmi (inr (notFound "vm-7")) happy))
             req7 0%nat 1%nat (notFound "vm-7")); reflexivity.
  - reflexivity.
Defined.

(** The management cluster answers a server error to the instance fetch. *)
Lemma instance_fetch_error_is_returned_witness :
  exists tr,
    Reconcile (scripted (with_vmi (inr serverError) happy)) req7 0%nat
      = (Returned (Result_zero, Some serverError), 1%nat, tr) /\
    length tr = 2%nat.
Proof.
  eexists. split.
  - apply (instance_fetch_error_is_returned
             (scripted (with_vmi (inr serverError) happy))
             req7 0%nat 1%nat serverError); reflexivity.
  - reflexivity.
Defined.

(** The workload cluster answers a server error to the node fetch. *)
Lemma node_fetch_error_is_surfaced_witness :
  (exists err,
     run_outcome (Reconcile (scripted (with_node (inr serverError) happy)) req7 0%nat)
       = Returned (Result_zero, Some err)) /\
  existsb is_delete
    (run_trace (Reconcile (scripted (with_node (inr serverError) happy)) req7 0%nat))
    = false.
Proof.
  set (E := scripted (with_node (inr serverError) happy)).
  destruct (node_fetch_error_is_surfaced E req7 0%nat _ _ _
              "apiVersion: v1" "node-7" serverError (run_eta E _))
    as (Hout & _ & _ & Hdel);
    [apply (nth_error_event _ _ 5%nat); reflexivity | reflexivity |].
  split; [eexists; exact Hout | exact Hdel].
Defined.

(** The happy run asks for node-7 of cluster default/tenant. *)
Lemma Reconcile_fetches_the_evacuation_node_witness :
  exists vmi clusterNS clusterName cluster,
    In (EvGetVMI (req_NamespacedName req7) (inl vmi))
       (run_trace (Reconcile (scripted happy) req7 0%nat)) /\
    "node-7" = vmi_Status_EvacuationNodeName vmi /\
    In (EvGetCluster {| nn_Namespace := clusterNS; nn_Name := clusterName |}
          (inl cluster))
       (run_trace (Reconcile (scripted happy) req7 0%nat)).
Proof.
  set (E := scripted happy).
  destruct (Reconcile_fetches_the_evacuation_node E req7 0%nat _ _ _
              "apiVersion: v1" "node-7" (inl node7) (run_eta E _))
    as (vmi & clusterNS & clusterName & cluster & Hvmi & Hname & _ & _ & _ & Hcl);
    [apply (nth_error_event _ _ 5%nat); reflexivity |].
  exists vmi, clusterNS, clusterName, cluster.
  split; [exact Hvmi | split; [exact Hname | exact Hcl]].
Defined.

(** The client of the happy run is built from the secret tenant-kubeconfig. *)
Lemma remote_client_comes_from_the_secret_witness :
  exists secret kubeconfig,
    In (EvGetSecret {| nn_Namespace := "default"; nn_Name := "tenant-kubeconfig" |}
          (inl secret))
       (run_trace (drainNode (scripted happy) tenant "node-7" 0%nat)) /\
    secret_Data secret !! "value" = Some kubeconfig.
Proof.
  set (E := scripted happy).
  destruct (remote_client_comes_from_the_secret E tenant "node-7" 0%nat _ _ _
              "apiVersion: v1" "node-7" (inl node7) (run_eta E _))
    as (_ & ref & secret & kubeconfig & cfg & Href & Hsec & Hval & _);
    [apply (nth_error_event _ _ 3%nat); reflexivity |].
  injection Href as <-.
  exists secret, kubeconfig. split; [exact Hsec | exact Hval].
Defined.

(** The cordon call of the happy run. *)
Lemma cordon_call_settings_witness :
  In (@EvCordon (scripted happy) drainer7 node7 true None)
     (run_trace (drainNode (scripted happy) tenant "node-7" 0%nat)) /\
  In (@EvGetNode (scripted happy) (Client drainer7) "node-7" (inl node7))
     (run_trace (drainNode (scripted happy) tenant "node-7" 0%nat)).
Proof.
  set (E := scripted happy).
  assert (Hin : In (@EvCordon E drainer7 node7 true None)
                   (run_trace (drainNode E tenant "node-7" 0%nat)))
    by (apply (nth_error_event _ _ 4%nat); reflexivity).
  split; [exact Hin|].
  exact (proj1 (proj2 (cordon_call_settings E tenant "node-7" 0%nat _ _ _
                         drainer7 node7 true None (run_eta E _) Hin))).
Defined.

(** The eviction run of the happy run comes after its cordon call. *)
Lemma eviction_follows_successful_cordon_witness :
  exists node pre post,
    "node-7" = node_Name node /\
    run_trace (drainNode (scripted happy) tenant "node-7" 0%nat)
      = pre ++ @EvDrain (scripted happy) drainer7 "node-7" None :: post /\
    In (@EvCordon (scripted happy) drainer7 node true None) pre.
Proof.
  set (E := scripted happy).
  apply (eviction_follows_successful_cordon E tenant "node-7" 0%nat _ _ _
           drainer7 "node-7" None (run_eta E _)).
  apply (nth_error_event _ _ 5%nat); reflexivity.
Defined.

(** The delete call of the happy run follows a cordon and an eviction. *)
Lemma delete_only_when_node_gone_or_drained_witness :
  In (EvGetVMI (req_NamespacedName req7) (inl vm7))
     (run_trace (Reconcile (scripted happy) req7 0%nat)).
Proof.
  set (E := scripted happy).
  apply (delete_only_when_node_gone_or_drained E req7 0%nat _ _ _
           vm7 foreground None (run_eta E _)).
  apply (nth_error_event _ _ 9%nat); reflexivity.
Defined.

(** The delete call answers a server error: requeue after 20 s with it. *)
Lemma Reconcile_result_after_delete_witness :
  run_outcome (Reconcile (scripted (with_delete (Some serverError) happy)) req7 0%nat)
    = Returned ({| Requeue := false; RequeueAfter := 20 * Second |}, Some serverError).
Proof.
  set (E := scripted (with_delete (Some serverError) happy)).
  apply (Reconcile_result_after_delete E req7 0%nat _ _ _
           vm7 foreground (Some serverError) (run_eta E _)).
  apply (nth_error_event _ _ 9%nat); reflexivity.
Defined.

(** Instance vm-7 and an instance of another namespace with the same two
    labels resolve to the same cluster. *)
Lemma getCluster_reads_only_the_two_labels_witness :
  getCluster (scripted happy) vm7 0%nat
    = getCluster (scripted happy) vm7_elsewhere 0%nat.
Proof.
  apply (getCluster_reads_only_the_two_labels (scripted happy) vm7 vm7_elsewhere);
    vm_compute; reflexivity.
Defined.
